(** * MOS 6530 RRIOT (chips/m6530.h): pin vector, field macros, chip state

    A shallow embedding of the header [src/chips/m6530.h].  The 64-bit pin
    vector ([uint64_t]) is a [Z] in the range [0 .. 2^64), bytes ([uint8_t])
    are [Z] in [0 .. 2^8), and every C conversion that wraps is written out
    with [mod]. *)

From Stdlib Require Import ZArith Lia Bool List String.
Import ListNotations.

Local Open Scope Z_scope.

(** ** Fixed-width unsigned integers *)

Module Wrap.

(** Conversion to [uint8_t], [uint16_t] and [uint64_t]. *)
Definition u8  (z : Z) : Z := z mod 2 ^ 8.
Definition u16 (z : Z) : Z := z mod 2 ^ 16.
Definition u64 (z : Z) : Z := z mod 2 ^ 64.

Definition is_u8  (z : Z) : Prop := 0 <= z < 2 ^ 8.
Definition is_u16 (z : Z) : Prop := 0 <= z < 2 ^ 16.
Definition is_u64 (z : Z) : Prop := 0 <= z < 2 ^ 64.

(** [~x] on an [unsigned long long] operand. *)
Definition not64 (x : Z) : Z := u64 (Z.lnot x).

(** [~x] followed by the conversion back to [uint8_t]. *)
Definition not8 (x : Z) : Z := u8 (Z.lnot x).

End Wrap.
Import Wrap.

(** ** Pin positions (m6530.h, lines 121-169) *)

(* address bus pins *)
Definition M6530_PIN_A0 : Z := 0.
Definition M6530_PIN_A1 : Z := 1.
Definition M6530_PIN_A2 : Z := 2.
Definition M6530_PIN_A3 : Z := 3.
Definition M6530_PIN_A4 : Z := 4.
Definition M6530_PIN_A5 : Z := 5.
Definition M6530_PIN_A6 : Z := 6.
Definition M6530_PIN_A7 : Z := 7.
Definition M6530_PIN_A8 : Z := 8.
Definition M6530_PIN_A9 : Z := 9.
Definition M6530_PIN_RS0 : Z := 10.
Definition M6530_PIN_CS1 : Z := 42.
Definition M6530_PIN_CS2 : Z := 41.

(* control pins *)
Definition M6530_PIN_RW : Z := 11.
Definition M6530_PIN_IRQ : Z := 43.
Definition M6530_PIN_RES : Z := 12.

(* data bus pins *)
Definition M6530_PIN_D0 : Z := 16.
Definition M6530_PIN_D1 : Z := 17.
Definition M6530_PIN_D2 : Z := 18.
Definition M6530_PIN_D3 : Z := 19.
Definition M6530_PIN_D4 : Z := 20.
Definition M6530_PIN_D5 : Z := 21.
Definition M6530_PIN_D6 : Z := 22.
Definition M6530_PIN_D7 : Z := 23.

(* peripheral A port *)
Definition M6530_PIN_PA0 : Z := 24.
Definition M6530_PIN_PA1 : Z := 25.
Definition M6530_PIN_PA2 : Z := 26.
Definition M6530_PIN_PA3 : Z := 27.
Definition M6530_PIN_PA4 : Z := 28.
Definition M6530_PIN_PA5 : Z := 29.
Definition M6530_PIN_PA6 : Z := 30.
Definition M6530_PIN_PA7 : Z := 31.

(* peripheral B port *)
Definition M6530_PIN_PB0 : Z := 32.
Definition M6530_PIN_PB1 : Z := 33.
Definition M6530_PIN_PB2 : Z := 34.
Definition M6530_PIN_PB3 : Z := 35.
Definition M6530_PIN_PB4 : Z := 36.
Definition M6530_PIN_PB5 : Z := 37.
Definition M6530_PIN_PB6 : Z := 38.
Definition M6530_PIN_PB7 : Z := 39.

(** ** Field accessors and mutators (m6530.h, lines 263-276)

    The mutators are statement macros that assign to their first argument;
    here they return the new value of [p]. *)

(* #define M6530_GET_DATA(p) ((uint8_t)((p)>>16)) *)
Definition M6530_GET_DATA (p : Z) : Z := u8 (Z.shiftr p 16).

(* #define M6530_SET_DATA(p,d) {p=(((p)&~0xFF0000ULL)|(((d)<<16)&0xFF0000ULL));} *)
Definition M6530_SET_DATA (p d : Z) : Z :=
  Z.lor (Z.land p (not64 0xFF0000)) (Z.land (Z.shiftl d 16) 0xFF0000).

(* #define M6530_GET_PA(p) ((uint8_t)((p)>>24)) *)
Definition M6530_GET_PA (p : Z) : Z := u8 (Z.shiftr p 24).

(* #define M6530_GET_PB(p) ((uint8_t)((p)>>32)) *)
Definition M6530_GET_PB (p : Z) : Z := u8 (Z.shiftr p 32).

(* #define M6530_SET_PA(p,a) {p=((p)&0xFFFFFFFF00FFFFFFULL)|(((a)&0xFFULL)<<24);} *)
Definition M6530_SET_PA (p a : Z) : Z :=
  Z.lor (Z.land p 0xFFFFFFFF00FFFFFF) (u64 (Z.shiftl (Z.land a 0xFF) 24)).

(* #define M6530_SET_PB(p,b) {p=((p)&0xFFFFFF00FFFFFFFFULL)|(((b)&0xFFULL)<<32);} *)
Definition M6530_SET_PB (p b : Z) : Z :=
  Z.lor (Z.land p 0xFFFFFF00FFFFFFFF) (u64 (Z.shiftl (Z.land b 0xFF) 32)).

(* #define M6530_SET_PAB(p,a,b)
     {p=((p)&0xFFFFFF0000FFFFFFULL)|(((a)&0xFFULL)<<24)|(((b)&0xFFULL)<<32);} *)
Definition M6530_SET_PAB (p a b : Z) : Z :=
  Z.lor (Z.lor (Z.land p 0xFFFFFF0000FFFFFF)
               (u64 (Z.shiftl (Z.land a 0xFF) 24)))
        (u64 (Z.shiftl (Z.land b 0xFF) 32)).

(** ** Pin bit masks (m6530.h, lines 172-215)

    The masks are object-like macros whose bodies mention other macros, so
    they are kept as the token sequences the header gives and evaluated by
    expansion.  A body is an expression over integer constants, macro names,
    [<<] and [|].  The three bodies at lines 183-185 read [1ULL<<6530_PIN_RS0],
    [1ULL<<6530_PIN_CS1] and [1ULL<<6530_PIN_CS2]: the right operand starts
    with a digit, so it is one preprocessing number and not the name of a
    macro, and it is not an integer constant either. *)

Module Cpp.

Local Open Scope string_scope.
Local Open Scope Z_scope.

Inductive cexpr : Type :=
| Const (z : Z)                  (* integer constant: 1ULL, (16), 0xFF0000ULL *)
| Name (id : string)             (* identifier, replaced by its macro body *)
| BadNumber (spelling : string)  (* preprocessing number that is no constant *)
| Shl (a b : cexpr)              (* a << b, left operand unsigned long long *)
| Or (a b : cexpr).              (* a | b *)

Definition defines : list (string * cexpr) := [
  ("M6530_PIN_A0", Const M6530_PIN_A0);
  ("M6530_PIN_A1", Const M6530_PIN_A1);
  ("M6530_PIN_A2", Const M6530_PIN_A2);
  ("M6530_PIN_A3", Const M6530_PIN_A3);
  ("M6530_PIN_A4", Const M6530_PIN_A4);
  ("M6530_PIN_A5", Const M6530_PIN_A5);
  ("M6530_PIN_A6", Const M6530_PIN_A6);
  ("M6530_PIN_A7", Const M6530_PIN_A7);
  ("M6530_PIN_A8", Const M6530_PIN_A8);
  ("M6530_PIN_A9", Const M6530_PIN_A9);
  ("M6530_PIN_RS0", Const M6530_PIN_RS0);
  ("M6530_PIN_CS1", Const M6530_PIN_CS1);
  ("M6530_PIN_CS2", Const M6530_PIN_CS2);
  ("M6530_PIN_RW", Const M6530_PIN_RW);
  ("M6530_PIN_IRQ", Const M6530_PIN_IRQ);
  ("M6530_PIN_RES", Const M6530_PIN_RES);
  ("M6530_PIN_D0", Const M6530_PIN_D0);
  ("M6530_PIN_D1", Const M6530_PIN_D1);
  ("M6530_PIN_D2", Const M6530_PIN_D2);
  ("M6530_PIN_D3", Const M6530_PIN_D3);
  ("M6530_PIN_D4", Const M6530_PIN_D4);
  ("M6530_PIN_D5", Const M6530_PIN_D5);
  ("M6530_PIN_D6", Const M6530_PIN_D6);
  ("M6530_PIN_D7", Const M6530_PIN_D7);
  ("M6530_PIN_PA0", Const M6530_PIN_PA0);
  ("M6530_PIN_PA1", Const M6530_PIN_PA1);
  ("M6530_PIN_PA2", Const M6530_PIN_PA2);
  ("M6530_PIN_PA3", Const M6530_PIN_PA3);
  ("M6530_PIN_PA4", Const M6530_PIN_PA4);
  ("M6530_PIN_PA5", Const M6530_PIN_PA5);
  ("M6530_PIN_PA6", Const M6530_PIN_PA6);
  ("M6530_PIN_PA7", Const M6530_PIN_PA7);
  ("M6530_PIN_PB0", Const M6530_PIN_PB0);
  ("M6530_PIN_PB1", Const M6530_PIN_PB1);
  ("M6530_PIN_PB2", Const M6530_PIN_PB2);
  ("M6530_PIN_PB3", Const M6530_PIN_PB3);
  ("M6530_PIN_PB4", Const M6530_PIN_PB4);
  ("M6530_PIN_PB5", Const M6530_PIN_PB5);
  ("M6530_PIN_PB6", Const M6530_PIN_PB6);
  ("M6530_PIN_PB7", Const M6530_PIN_PB7);
  ("M6530_A0", Shl (Const 1) (Name "M6530_PIN_A0"));
  ("M6530_A1", Shl (Const 1) (Name "M6530_PIN_A1"));
  ("M6530_A2", Shl (Const 1) (Name "M6530_PIN_A2"));
  ("M6530_A3", Shl (Const 1) (Name "M6530_PIN_A3"));
  ("M6530_A4", Shl (Const 1) (Name "M6530_PIN_A4"));
  ("M6530_A5", Shl (Const 1) (Name "M6530_PIN_A5"));
  ("M6530_A6", Shl (Const 1) (Name "M6530_PIN_A6"));
  ("M6530_A7", Shl (Const 1) (Name "M6530_PIN_A7"));
  ("M6530_A8", Shl (Const 1) (Name "M6530_PIN_A8"));
  ("M6530_A9", Shl (Const 1) (Name "M6530_PIN_A9"));
  ("M6530_RS0", Shl (Const 1) (BadNumber "6530_PIN_RS0"));
  ("M6530_CS1", Shl (Const 1) (BadNumber "6530_PIN_CS1"));
  ("M6530_CS2", Shl (Const 1) (BadNumber "6530_PIN_CS2"));
  ("M6530_RES", Shl (Const 1) (Name "M6530_PIN_RES"));
  ("M6530_D0", Shl (Const 1) (Name "M6530_PIN_D0"));
  ("M6530_D1", Shl (Const 1) (Name "M6530_PIN_D1"));
  ("M6530_D2", Shl (Const 1) (Name "M6530_PIN_D2"));
  ("M6530_D3", Shl (Const 1) (Name "M6530_PIN_D3"));
  ("M6530_D4", Shl (Const 1) (Name "M6530_PIN_D4"));
  ("M6530_D5", Shl (Const 1) (Name "M6530_PIN_D5"));
  ("M6530_D6", Shl (Const 1) (Name "M6530_PIN_D6"));
  ("M6530_D7", Shl (Const 1) (Name "M6530_PIN_D7"));
  ("M6530_DB_PINS", Const 0xFF0000);
  ("M6530_RW", Shl (Const 1) (Name "M6530_PIN_RW"));
  ("M6530_IRQ", Shl (Const 1) (Name "M6530_PIN_IRQ"));
  ("M6530_PA0", Shl (Const 1) (Name "M6530_PIN_PA0"));
  ("M6530_PA1", Shl (Const 1) (Name "M6530_PIN_PA1"));
  ("M6530_PA2", Shl (Const 1) (Name "M6530_PIN_PA2"));
  ("M6530_PA3", Shl (Const 1) (Name "M6530_PIN_PA3"));
  ("M6530_PA4", Shl (Const 1) (Name "M6530_PIN_PA4"));
  ("M6530_PA5", Shl (Const 1) (Name "M6530_PIN_PA5"));
  ("M6530_PA6", Shl (Const 1) (Name "M6530_PIN_PA6"));
  ("M6530_PA7", Shl (Const 1) (Name "M6530_PIN_PA7"));
  ("M6530_PA_PINS", Or (Or (Or (Or (Or (Or (Or (Name "M6530_PA0") (Name "M6530_PA1")) (Name "M6530_PA2")) (Name "M6530_PA3")) (Name "M6530_PA4")) (Name "M6530_PA5")) (Name "M6530_PA6")) (Name "M6530_PA7"));
  ("M6530_PB0", Shl (Const 1) (Name "M6530_PIN_PB0"));
  ("M6530_PB1", Shl (Const 1) (Name "M6530_PIN_PB1"));
  ("M6530_PB2", Shl (Const 1) (Name "M6530_PIN_PB2"));
  ("M6530_PB3", Shl (Const 1) (Name "M6530_PIN_PB3"));
  ("M6530_PB4", Shl (Const 1) (Name "M6530_PIN_PB4"));
  ("M6530_PB5", Shl (Const 1) (Name "M6530_PIN_PB5"));
  ("M6530_PB6", Shl (Const 1) (Name "M6530_PIN_PB6"));
  ("M6530_PB7", Shl (Const 1) (Name "M6530_PIN_PB7"));
  ("M6530_PB_PINS", Or (Or (Or (Or (Or (Or (Or (Name "M6530_PB0") (Name "M6530_PB1")) (Name "M6530_PB2")) (Name "M6530_PB3")) (Name "M6530_PB4")) (Name "M6530_PB5")) (Name "M6530_PB6")) (Name "M6530_PB7"))
].

Fixpoint lookup (id : string) (l : list (string * cexpr)) : option cexpr :=
  match l with
  | [] => None
  | (n, body) :: rest => if String.eqb id n then Some body else lookup id rest
  end.

(** Value of an expression after macro expansion; [None] when the
    expression does not translate (unknown name, malformed constant, shift
    count outside [0 .. 63]) or the expansion depth [fuel] is used up. *)
Fixpoint eval (fuel : nat) (e : cexpr) : option Z :=
  match fuel with
  | O => None
  | S fuel' =>
      match e with
      | Const z => Some z
      | Name id =>
          match lookup id defines with
          | Some body => eval fuel' body
          | None => None
          end
      | BadNumber _ => None
      | Shl a b =>
          match eval fuel' a, eval fuel' b with
          | Some x, Some n =>
              if (0 <=? n) && (n <? 64) then Some (u64 (Z.shiftl x n)) else None
          | _, _ => None
          end
      | Or a b =>
          match eval fuel' a, eval fuel' b with
          | Some x, Some y => Some (Z.lor x y)
          | _, _ => None
          end
      end
  end.

Definition value_of (id : string) : option Z := eval 32 (Name id).

(** Every named pin: its mask macro and its position macro. *)
Definition named_pins : list (string * string) := [
  ("M6530_A0", "M6530_PIN_A0");
  ("M6530_A1", "M6530_PIN_A1");
  ("M6530_A2", "M6530_PIN_A2");
  ("M6530_A3", "M6530_PIN_A3");
  ("M6530_A4", "M6530_PIN_A4");
  ("M6530_A5", "M6530_PIN_A5");
  ("M6530_A6", "M6530_PIN_A6");
  ("M6530_A7", "M6530_PIN_A7");
  ("M6530_A8", "M6530_PIN_A8");
  ("M6530_A9", "M6530_PIN_A9");
  ("M6530_RS0", "M6530_PIN_RS0");
  ("M6530_CS1", "M6530_PIN_CS1");
  ("M6530_CS2", "M6530_PIN_CS2");
  ("M6530_RES", "M6530_PIN_RES");
  ("M6530_D0", "M6530_PIN_D0");
  ("M6530_D1", "M6530_PIN_D1");
  ("M6530_D2", "M6530_PIN_D2");
  ("M6530_D3", "M6530_PIN_D3");
  ("M6530_D4", "M6530_PIN_D4");
  ("M6530_D5", "M6530_PIN_D5");
  ("M6530_D6", "M6530_PIN_D6");
  ("M6530_D7", "M6530_PIN_D7");
  ("M6530_RW", "M6530_PIN_RW");
  ("M6530_IRQ", "M6530_PIN_IRQ");
  ("M6530_PA0", "M6530_PIN_PA0");
  ("M6530_PA1", "M6530_PIN_PA1");
  ("M6530_PA2", "M6530_PIN_PA2");
  ("M6530_PA3", "M6530_PIN_PA3");
  ("M6530_PA4", "M6530_PIN_PA4");
  ("M6530_PA5", "M6530_PIN_PA5");
  ("M6530_PA6", "M6530_PIN_PA6");
  ("M6530_PA7", "M6530_PIN_PA7");
  ("M6530_PB0", "M6530_PIN_PB0");
  ("M6530_PB1", "M6530_PIN_PB1");
  ("M6530_PB2", "M6530_PIN_PB2");
  ("M6530_PB3", "M6530_PIN_PB3");
  ("M6530_PB4", "M6530_PIN_PB4");
  ("M6530_PB5", "M6530_PIN_PB5");
  ("M6530_PB6", "M6530_PIN_PB6");
  ("M6530_PB7", "M6530_PIN_PB7")
].

(** Does mask [m] evaluate to [1 << p]? *)
Definition mask_is_bit_of (mp : string * string) : bool :=
  match value_of (fst mp), value_of (snd mp) with
  | Some x, Some n => x =? Z.shiftl 1 n
  | _, _ => false
  end.

Definition data_bus_masks : list string :=
  ["M6530_D0"; "M6530_D1"; "M6530_D2"; "M6530_D3";
   "M6530_D4"; "M6530_D5"; "M6530_D6"; "M6530_D7"].

(** Bitwise OR of the values of a list of macros. *)
Fixpoint or_of (ids : list string) : option Z :=
  match ids with
  | [] => Some 0
  | id :: rest =>
      match value_of id, or_of rest with
      | Some x, Some y => Some (Z.lor x y)
      | _, _ => None
      end
  end.

End Cpp.

(* #define M6530_IRQ (1ULL<<M6530_PIN_IRQ) *)
Definition M6530_IRQ : Z := u64 (Z.shiftl 1 M6530_PIN_IRQ).

(* #define M6530_DB_PINS (0xFF0000ULL) *)
Definition M6530_DB_PINS : Z := 0xFF0000.

(* #define M6530_PA_PINS (M6530_PA0|M6530_PA1|...|M6530_PA7) *)
Definition M6530_PA_PINS : Z :=
  fold_left Z.lor
    (map (fun n => u64 (Z.shiftl 1 n))
       [M6530_PIN_PA0; M6530_PIN_PA1; M6530_PIN_PA2; M6530_PIN_PA3;
        M6530_PIN_PA4; M6530_PIN_PA5; M6530_PIN_PA6; M6530_PIN_PA7]) 0.

(* #define M6530_PB_PINS (M6530_PB0|M6530_PB1|...|M6530_PB7) *)
Definition M6530_PB_PINS : Z :=
  fold_left Z.lor
    (map (fun n => u64 (Z.shiftl 1 n))
       [M6530_PIN_PB0; M6530_PIN_PB1; M6530_PIN_PB2; M6530_PIN_PB3;
        M6530_PIN_PB4; M6530_PIN_PB5; M6530_PIN_PB6; M6530_PIN_PB7]) 0.

(** Pins by group, in the order the header lists them. *)
Definition address_pins : list Z :=
  [M6530_PIN_A0; M6530_PIN_A1; M6530_PIN_A2; M6530_PIN_A3; M6530_PIN_A4;
   M6530_PIN_A5; M6530_PIN_A6; M6530_PIN_A7; M6530_PIN_A8; M6530_PIN_A9].

Definition data_pins : list Z :=
  [M6530_PIN_D0; M6530_PIN_D1; M6530_PIN_D2; M6530_PIN_D3;
   M6530_PIN_D4; M6530_PIN_D5; M6530_PIN_D6; M6530_PIN_D7].

Definition port_a_pins : list Z :=
  [M6530_PIN_PA0; M6530_PIN_PA1; M6530_PIN_PA2; M6530_PIN_PA3;
   M6530_PIN_PA4; M6530_PIN_PA5; M6530_PIN_PA6; M6530_PIN_PA7].

Definition port_b_pins : list Z :=
  [M6530_PIN_PB0; M6530_PIN_PB1; M6530_PIN_PB2; M6530_PIN_PB3;
   M6530_PIN_PB4; M6530_PIN_PB5; M6530_PIN_PB6; M6530_PIN_PB7].

Definition select_and_control_pins : list Z :=
  [M6530_PIN_RS0; M6530_PIN_CS1; M6530_PIN_CS2;
   M6530_PIN_RW; M6530_PIN_IRQ; M6530_PIN_RES].

Definition all_pins : list Z :=
  address_pins ++ select_and_control_pins ++ data_pins ++ port_a_pins ++ port_b_pins.

(** [n, n+1, ..., n+len-1] *)
Definition run (n : Z) (len : nat) : list Z :=
  map (fun k => n + Z.of_nat k) (seq 0 len).

(** Is bit position [i] inside the byte that starts at position [lo]? *)
Definition in_byte_at (lo i : Z) : Prop := lo <= i < lo + 8.

(** Do the vectors [p] and [q] have the same level on every pin from [lo] to
    [hi]? *)
Definition agree_on (lo hi p q : Z) : Prop :=
  forall i, lo <= i <= hi -> Z.testbit p i = Z.testbit q i.

(** ** Chip state (m6530.h, lines 218-261)

    Fields of type [uint8_t] and [uint16_t] are [Z]; the well-formedness
    predicates below say that each one is in the range of its C type. *)

(* I/O port state *)
Module Port.
Record m6530_port_t : Type := mk {
  inpr : Z;
  outr : Z;
  ddr : Z;
  pins : Z;
  c1_in : bool;
  c1_out : bool;
  c1_triggered : bool;
  c2_in : bool;
  c2_out : bool;
  c2_triggered : bool
}.

Definition wf (p : m6530_port_t) : Prop :=
  is_u8 (inpr p) /\ is_u8 (outr p) /\ is_u8 (ddr p) /\ is_u8 (pins p).
End Port.
Abbreviation m6530_port_t := Port.m6530_port_t.

(* timer state *)
Module Timer.
Record m6530_timer_t : Type := mk {
  latch : Z;      (* 16-bit initial value latch *)
  counter : Z;    (* 16-bit counter *)
  t_bit : bool;   (* toggles between true and false when counter underflows *)
  t_out : bool;   (* true for 1 cycle when counter underflow *)
  pip : Z         (* uint16_t; merged delay-pipelines:
                       2-cycle 'counter active':   bits 0..7
                       1-cycle 'force load':       bits 8..16 *)
}.

Definition wf (t : m6530_timer_t) : Prop :=
  is_u16 (latch t) /\ is_u16 (counter t) /\ is_u16 (pip t).
End Timer.
Abbreviation m6530_timer_t := Timer.m6530_timer_t.

(* interrupt state *)
Module Int.
Record m6530_int_t : Type := mk {
  ier : Z;   (* interrupt enable register *)
  ifr : Z;   (* interrupt flag register *)
  pip : Z
}.

Definition wf (i : m6530_int_t) : Prop :=
  is_u8 (ier i) /\ is_u8 (ifr i) /\ is_u16 (pip i).
End Int.
Abbreviation m6530_int_t := Int.m6530_int_t.

(* m6530 state *)
Module Chip.
Record m6530_t : Type := mk {
  pa : m6530_port_t;
  pb : m6530_port_t;
  t1 : m6530_timer_t;
  intr : m6530_int_t;
  acr : Z;    (* auxilary control register *)
  pcr : Z;    (* peripheral control register *)
  pins : Z
}.
End Chip.
Abbreviation m6530_t := Chip.m6530_t.

(** ** Behaviour the header declares state for but does not implement

    The [CHIPS_IMPL] part of m6530.h is empty: there is no tick, no reset and
    no register access code.  The definitions of this part follow the text of
    the specification, over the state records above. *)

Module Rriot.

(** Modelled from the spec: the effective pin levels of a port, missing
    from m6530.h, which only declares [m6530_port_t].  Spec, data model:
    "effective_pins: u8, derived each tick:
    (output_register & direction) | (input_level & ~direction)". *)
Definition effective_pins (p : m6530_port_t) : Z :=
  u8 (Z.lor (Z.land (Port.outr p) (Port.ddr p))
            (Z.land (Port.inpr p) (Z.lnot (Port.ddr p)))).

(** Modelled from the spec: write of a port's data register, missing from
    m6530.h.  "output_register takes the written value immediately". *)
Definition write_data (p : m6530_port_t) (v : Z) : m6530_port_t :=
  Port.mk (Port.inpr p) (u8 v) (Port.ddr p) (Port.pins p)
          (Port.c1_in p) (Port.c1_out p) (Port.c1_triggered p)
          (Port.c2_in p) (Port.c2_out p) (Port.c2_triggered p).

(** Modelled from the spec: write of a port's direction register, missing
    from m6530.h.  "direction takes the written value immediately". *)
Definition write_ddr (p : m6530_port_t) (v : Z) : m6530_port_t :=
  Port.mk (Port.inpr p) (Port.outr p) (u8 v) (Port.pins p)
          (Port.c1_in p) (Port.c1_out p) (Port.c1_triggered p)
          (Port.c2_in p) (Port.c2_out p) (Port.c2_triggered p).

(** Modelled from the spec: the externally driven level of a port for this
    tick, missing from m6530.h.  "input_level: externally driven level on
    this tick, supplied by the caller via the pin vector". *)
Definition drive_input (p : m6530_port_t) (level : Z) : m6530_port_t :=
  Port.mk (u8 level) (Port.outr p) (Port.ddr p) (Port.pins p)
          (Port.c1_in p) (Port.c1_out p) (Port.c1_triggered p)
          (Port.c2_in p) (Port.c2_out p) (Port.c2_triggered p).

(** Modelled from the spec: read of a port's data register, missing from
    m6530.h.  "On a read of the data register: returns effective_pins as
    currently computed". *)
Definition read_data (p : m6530_port_t) : Z := effective_pins p.

(** Modelled from the spec: the power-on state and [reset], missing from
    m6530.h.  "reset returns every sub-state to its power-on-equivalent
    default (registers zeroed, direction registers zeroed meaning
    all-input, counters and pipelines cleared, interrupt flags cleared)". *)
Definition port_power_on : m6530_port_t :=
  Port.mk 0 0 0 0 false false false false false false.

Definition timer_power_on : m6530_timer_t := Timer.mk 0 0 false false 0.

Definition int_power_on : m6530_int_t := Int.mk 0 0 0.

Definition m6530_reset (c : m6530_t) : m6530_t :=
  Chip.mk port_power_on port_power_on timer_power_on int_power_on 0 0 0.

(** What the spec lists for the state after reset. *)
Definition registers_zeroed (c : m6530_t) : Prop :=
  Port.outr (Chip.pa c) = 0 /\ Port.outr (Chip.pb c) = 0 /\
  Chip.acr c = 0 /\ Chip.pcr c = 0 /\
  Timer.latch (Chip.t1 c) = 0 /\ Int.ier (Chip.intr c) = 0.

Definition directions_all_input (c : m6530_t) : Prop :=
  Port.ddr (Chip.pa c) = 0 /\ Port.ddr (Chip.pb c) = 0.

Definition counters_and_pipelines_cleared (c : m6530_t) : Prop :=
  Timer.counter (Chip.t1 c) = 0 /\ Timer.pip (Chip.t1 c) = 0 /\
  Int.pip (Chip.intr c) = 0.

Definition interrupt_flags_cleared (c : m6530_t) : Prop :=
  Int.ifr (Chip.intr c) = 0 /\
  Port.c1_triggered (Chip.pa c) = false /\ Port.c2_triggered (Chip.pa c) = false /\
  Port.c1_triggered (Chip.pb c) = false /\ Port.c2_triggered (Chip.pb c) = false.

(** Modelled from the spec: the interrupt output, missing from m6530.h.
    "The outward interrupt pin is the logical OR of
    (enable_mask & flag_mask) bits, re-evaluated every tick after the
    pipeline advance - this must be the last step of tick". *)
Definition update_irq (i : m6530_int_t) (pins : Z) : Z :=
  if Z.land (Int.ier i) (Int.ifr i) =? 0
  then Z.land pins (not64 M6530_IRQ)
  else Z.lor pins M6530_IRQ.

(** Modelled from the spec: a change of the enable mask, missing from
    m6530.h; the flag mask is a separate field. *)
Definition set_enable (i : m6530_int_t) (e : Z) : m6530_int_t :=
  Int.mk (u8 e) (Int.ifr i) (Int.pip i).

Section Tick.

(** Everything a tick does before the interrupt output: register decode
    and access, timer, port edge detectors, advance of the interrupt
    pipeline.  Neither m6530.h nor the spec fixes the register map or the
    pipeline encoding, so these phases stay a parameter. *)
Variable settle : m6530_t -> Z -> m6530_t * Z.

(** Modelled from the spec: the tick orchestrator, missing from m6530.h.
    "decode, (optional) register access, advance timer, advance ports'
    edge-detectors, advance interrupt pipeline, recompute outward pins,
    return updated vector", with the interrupt line recomputed last. *)
Definition m6530_tick (c : m6530_t) (pins : Z) : m6530_t * Z :=
  let (c1, p1) := settle c pins in
  (c1, update_irq (Chip.intr c1) p1).

End Tick.

End Rriot.

(** ** Bit-level lemmas *)

Section Bits.

Lemma testbit_u64 (z i : Z) :
  Z.testbit (u64 z) i = (i <? 64) && Z.testbit z i.
Proof.
  unfold u64. destruct (Z.ltb_spec i 64).
  - destruct (Z.lt_ge_cases i 0).
    + rewrite !Z.testbit_neg_r by lia. reflexivity.
    + rewrite Z.mod_pow2_bits_low by lia. reflexivity.
  - rewrite Z.mod_pow2_bits_high by lia. reflexivity.
Qed.

Lemma testbit_u8 (z i : Z) :
  Z.testbit (u8 z) i = (i <? 8) && Z.testbit z i.
Proof.
  unfold u8. destruct (Z.ltb_spec i 8).
  - destruct (Z.lt_ge_cases i 0).
    + rewrite !Z.testbit_neg_r by lia. reflexivity.
    + rewrite Z.mod_pow2_bits_low by lia. reflexivity.
  - rewrite Z.mod_pow2_bits_high by lia. reflexivity.
Qed.

Lemma testbit_high (n z i : Z) :
  0 <= n -> 0 <= z < 2 ^ n -> n <= i -> Z.testbit z i = false.
Proof.
  intros Hn Hz Hi.
  rewrite <- (Z.mod_small z (2 ^ n)) by assumption.
  apply Z.mod_pow2_bits_high. lia.
Qed.

(** A byte-wide mask placed [k] bits up. *)
Lemma testbit_byte_mask (k i : Z) :
  0 <= k -> 0 <= i ->
  Z.testbit (Z.shiftl 0xFF k) i = (k <=? i) && (i <? k + 8).
Proof.
  intros Hk Hi. rewrite Z.shiftl_spec by assumption.
  change 0xFF with (Z.ones 8).
  destruct (Z.leb_spec k i); simpl.
  - rewrite Z.testbit_ones_nonneg by lia.
    destruct (Z.ltb_spec (i - k) 8), (Z.ltb_spec i (k + 8)); (reflexivity || lia).
  - apply Z.testbit_neg_r. lia.
Qed.

Lemma testbit_not64 (x i : Z) :
  0 <= i -> Z.testbit (not64 x) i = (i <? 64) && negb (Z.testbit x i).
Proof.
  intros Hi. unfold not64. rewrite testbit_u64, Z.lnot_spec by assumption.
  reflexivity.
Qed.

(** The byte [a & 0xFF] moved [k] bits up, seen bit by bit. *)
Lemma testbit_byte_at (a k i : Z) :
  0 <= k -> 0 <= i ->
  Z.testbit (Z.shiftl (Z.land a 0xFF) k) i
  = (k <=? i) && (i <? k + 8) && Z.testbit a (i - k).
Proof.
  intros Hk Hi. rewrite Z.shiftl_spec by assumption.
  destruct (Z.leb_spec k i); simpl.
  - rewrite Z.land_spec. change 0xFF with (Z.ones 8).
    rewrite Z.testbit_ones_nonneg by lia.
    destruct (Z.ltb_spec (i - k) 8), (Z.ltb_spec i (k + 8));
      try lia; apply andb_comm.
  - apply Z.testbit_neg_r. lia.
Qed.

End Bits.

(** ** The field mutators and accessors *)

Section FieldMacros.

Lemma mask_data : 0xFF0000 = Z.shiftl 0xFF M6530_PIN_D0.
Proof. reflexivity. Qed.

Lemma mask_not_pa : 0xFFFFFFFF00FFFFFF = not64 (Z.shiftl 0xFF M6530_PIN_PA0).
Proof. reflexivity. Qed.

Lemma mask_not_pb : 0xFFFFFF00FFFFFFFF = not64 (Z.shiftl 0xFF M6530_PIN_PB0).
Proof. reflexivity. Qed.

Lemma mask_not_pab :
  0xFFFFFF0000FFFFFF
  = Z.land (not64 (Z.shiftl 0xFF M6530_PIN_PA0)) (not64 (Z.shiftl 0xFF M6530_PIN_PB0)).
Proof. reflexivity. Qed.

(** Bits of the four mutators, for a bit index that is not negative. *)
Lemma testbit_SET_DATA (p d i : Z) :
  0 <= i ->
  Z.testbit (M6530_SET_DATA p d) i
  = if (16 <=? i) && (i <? 24) then Z.testbit d (i - 16)
    else (i <? 64) && Z.testbit p i.
Proof.
  intros Hi. unfold M6530_SET_DATA.
  rewrite Z.lor_spec, !Z.land_spec, testbit_not64 by assumption.
  rewrite mask_data, testbit_byte_mask, Z.shiftl_spec by (cbv; congruence || assumption).
  change (M6530_PIN_D0 + 8) with 24. change M6530_PIN_D0 with 16.
  destruct (16 <=? i), (i <? 24), (i <? 64), (Z.testbit p i), (Z.testbit d (i - 16));
    reflexivity.
Qed.

Lemma testbit_SET_PA (p a i : Z) :
  0 <= i ->
  Z.testbit (M6530_SET_PA p a) i
  = if (24 <=? i) && (i <? 32) then Z.testbit a (i - 24)
    else (i <? 64) && Z.testbit p i.
Proof.
  intros Hi. unfold M6530_SET_PA.
  rewrite Z.lor_spec, Z.land_spec, testbit_u64, mask_not_pa.
  rewrite testbit_not64, testbit_byte_mask, testbit_byte_at
    by (cbv; congruence || assumption).
  change (M6530_PIN_PA0 + 8) with 32. change M6530_PIN_PA0 with 24.
  change (24 + 8) with 32.
  destruct (Z.ltb_spec i 32), (Z.ltb_spec i 64); try lia;
    destruct (24 <=? i), (Z.testbit p i), (Z.testbit a (i - 24)); reflexivity.
Qed.

Lemma testbit_SET_PB (p b i : Z) :
  0 <= i ->
  Z.testbit (M6530_SET_PB p b) i
  = if (32 <=? i) && (i <? 40) then Z.testbit b (i - 32)
    else (i <? 64) && Z.testbit p i.
Proof.
  intros Hi. unfold M6530_SET_PB.
  rewrite Z.lor_spec, Z.land_spec, testbit_u64, mask_not_pb.
  rewrite testbit_not64, testbit_byte_mask, testbit_byte_at
    by (cbv; congruence || assumption).
  change (M6530_PIN_PB0 + 8) with 40. change M6530_PIN_PB0 with 32.
  change (32 + 8) with 40.
  destruct (Z.ltb_spec i 40), (Z.ltb_spec i 64); try lia;
    destruct (32 <=? i), (Z.testbit p i), (Z.testbit b (i - 32)); reflexivity.
Qed.

Lemma testbit_SET_PAB (p a b i : Z) :
  0 <= i ->
  Z.testbit (M6530_SET_PAB p a b) i
  = if (24 <=? i) && (i <? 32) then Z.testbit a (i - 24)
    else if (32 <=? i) && (i <? 40) then Z.testbit b (i - 32)
    else (i <? 64) && Z.testbit p i.
Proof.
  intros Hi. unfold M6530_SET_PAB.
  rewrite !Z.lor_spec, Z.land_spec, !testbit_u64, mask_not_pab, Z.land_spec.
  rewrite !testbit_not64, !testbit_byte_mask, !testbit_byte_at
    by (cbv; congruence || assumption).
  change (M6530_PIN_PA0 + 8) with 32. change M6530_PIN_PA0 with 24.
  change (M6530_PIN_PB0 + 8) with 40. change M6530_PIN_PB0 with 32.
  change (24 + 8) with 32. change (32 + 8) with 40.
  destruct (Z.leb_spec 24 i), (Z.ltb_spec i 32), (Z.leb_spec 32 i),
           (Z.ltb_spec i 40), (Z.ltb_spec i 64); try lia;
    destruct (Z.testbit p i), (Z.testbit a (i - 24)), (Z.testbit b (i - 32));
    reflexivity.
Qed.

Lemma testbit_u64_small (p i : Z) :
  is_u64 p -> (i <? 64) && Z.testbit p i = Z.testbit p i.
Proof.
  intros Hp. destruct (Z.ltb_spec i 64); [ reflexivity | ].
  simpl. symmetry. apply (testbit_high 64); (assumption || lia).
Qed.

End FieldMacros.

Section FieldTheorems.

Lemma is_u64_of_bits (z : Z) :
  (forall i, 0 <= i -> Z.testbit z i = (i <? 64) && Z.testbit z i) -> is_u64 z.
Proof.
  intros H. assert (E : u64 z = z).
  { apply Z.bits_inj'. intros i Hi. rewrite testbit_u64. symmetry. auto. }
  rewrite <- E. apply Z.mod_pos_bound. lia.
Qed.

Lemma testbit_u8_small (v i : Z) :
  is_u8 v -> (i <? 8) && Z.testbit v i = Z.testbit v i.
Proof.
  intros Hv. destruct (Z.ltb_spec i 8); [ reflexivity | ].
  simpl. symmetry. apply (testbit_high 8); (assumption || lia).
Qed.

(** A bit index outside a field keeps its level; used for each mutator. *)
Ltac frame_bit H :=
  let i := fresh "i" in
  let Hi := fresh "Hi" in
  intros i Hi;
  destruct (Z.lt_ge_cases i 0);
  [ rewrite !Z.testbit_neg_r by assumption; reflexivity
  | rewrite H by assumption;
    repeat match goal with
           | |- context [?a <=? ?b] => destruct (Z.leb_spec a b); simpl
           | |- context [?a <? ?b] => destruct (Z.ltb_spec a b); simpl
           end;
    try reflexivity;
    try (exfalso;
         unfold M6530_PIN_D0, M6530_PIN_D7, M6530_PIN_PA0, M6530_PIN_PA7,
                M6530_PIN_PB0, M6530_PIN_PB7 in Hi; lia) ].

(** C2. For a 64-bit pin vector [p] and 8-bit values [v], [w], each field
    mutator leaves every bit outside its own field as it was:
    M6530_SET_DATA outside bits 16..23 (D0..D7), M6530_SET_PA outside bits
    24..31 (PA0..PA7), M6530_SET_PB outside bits 32..39 (PB0..PB7) and
    M6530_SET_PAB outside bits 24..39 (PA0..PB7); the results are again
    64-bit values. *)
Theorem field_mutators_frame (p v w : Z) :
  is_u64 p -> is_u8 v -> is_u8 w ->
  (forall i, i < M6530_PIN_D0 \/ M6530_PIN_D7 < i ->
             Z.testbit (M6530_SET_DATA p v) i = Z.testbit p i) /\
  (forall i, i < M6530_PIN_PA0 \/ M6530_PIN_PA7 < i ->
             Z.testbit (M6530_SET_PA p v) i = Z.testbit p i) /\
  (forall i, i < M6530_PIN_PB0 \/ M6530_PIN_PB7 < i ->
             Z.testbit (M6530_SET_PB p v) i = Z.testbit p i) /\
  (forall i, i < M6530_PIN_PA0 \/ M6530_PIN_PB7 < i ->
             Z.testbit (M6530_SET_PAB p v w) i = Z.testbit p i) /\
  is_u64 (M6530_SET_DATA p v) /\ is_u64 (M6530_SET_PA p v) /\
  is_u64 (M6530_SET_PB p v) /\ is_u64 (M6530_SET_PAB p v w).
Proof.
  intros Hp Hv Hw.
  assert (Hhi : forall i, 64 <= i -> Z.testbit p i = false)
    by (intros; apply (testbit_high 64); (assumption || lia)).
  split; [ | split; [ | split; [ | split; [ | split; [ | split; [ | split ] ] ] ] ] ].
  - frame_bit testbit_SET_DATA; symmetry; apply Hhi; assumption.
  - frame_bit testbit_SET_PA; symmetry; apply Hhi; assumption.
  - frame_bit testbit_SET_PB; symmetry; apply Hhi; assumption.
  - frame_bit testbit_SET_PAB; symmetry; apply Hhi; assumption.
  - apply is_u64_of_bits. intros i Hi. rewrite testbit_SET_DATA by assumption.
    destruct (Z.leb_spec 16 i), (Z.ltb_spec i 24), (Z.ltb_spec i 64); simpl;
      try lia; try reflexivity.
  - apply is_u64_of_bits. intros i Hi. rewrite testbit_SET_PA by assumption.
    destruct (Z.leb_spec 24 i), (Z.ltb_spec i 32), (Z.ltb_spec i 64); simpl;
      try lia; try reflexivity.
  - apply is_u64_of_bits. intros i Hi. rewrite testbit_SET_PB by assumption.
    destruct (Z.leb_spec 32 i), (Z.ltb_spec i 40), (Z.ltb_spec i 64); simpl;
      try lia; try reflexivity.
  - apply is_u64_of_bits. intros i Hi. rewrite testbit_SET_PAB by assumption.
    destruct (Z.leb_spec 24 i), (Z.ltb_spec i 32), (Z.leb_spec 32 i),
             (Z.ltb_spec i 40), (Z.ltb_spec i 64); simpl;
      try lia; try reflexivity.
Qed.

(** The macros on concrete vectors. *)
Example SET_DATA_all_ones : M6530_SET_DATA 0xFFFFFFFFFFFFFFFF 0x00 = 0xFFFFFFFFFF00FFFF.
Proof. reflexivity. Qed.

Example SET_PA_zero : M6530_SET_PA 0 0x5A = 0x5A000000.
Proof. reflexivity. Qed.

Example SET_PAB_zero : M6530_SET_PAB 0 0x5A 0xC3 = 0xC35A000000.
Proof. reflexivity. Qed.

Example GET_PB_sample : M6530_GET_PB 0x123456789ABCDEF0 = 0x78.
Proof. reflexivity. Qed.

Lemma field_mutators_frame_witness :
  is_u64 0x123456789ABCDEF0 /\ is_u8 0x5A /\ is_u8 0xC3 /\
  Z.testbit (M6530_SET_PAB 0x123456789ABCDEF0 0x5A 0xC3) M6530_PIN_IRQ
  = Z.testbit 0x123456789ABCDEF0 M6530_PIN_IRQ.
Proof.
  assert (Hp : is_u64 0x123456789ABCDEF0) by (unfold is_u64; lia).
  assert (Hv : is_u8 0x5A) by (unfold is_u8; lia).
  assert (Hw : is_u8 0xC3) by (unfold is_u8; lia).
  split; [ exact Hp | split; [ exact Hv | split; [ exact Hw | ] ] ].
  apply (field_mutators_frame 0x123456789ABCDEF0 0x5A 0xC3 Hp Hv Hw).
  right. unfold M6530_PIN_PB7, M6530_PIN_IRQ. lia.
Defined.

Ltac field_bit H :=
  let i := fresh "i" in
  let Hi := fresh "Hi" in
  apply Z.bits_inj'; intros i Hi;
  rewrite testbit_u8, Z.shiftr_spec, H by lia;
  repeat match goal with
         | |- context [?a <=? ?b] => destruct (Z.leb_spec a b); simpl
         | |- context [?a <? ?b] => destruct (Z.ltb_spec a b); simpl
         end;
  try lia;
  first [ f_equal; lia | symmetry; auto ].

(** C3. For a 64-bit pin vector [p] and an 8-bit value [v], reading a field
    right after writing it gives back the written value: M6530_GET_DATA
    after M6530_SET_DATA, M6530_GET_PA after M6530_SET_PA and M6530_GET_PB
    after M6530_SET_PB all yield [v]; so do M6530_GET_PA and M6530_GET_PB
    after M6530_SET_PAB for its two values. *)
Theorem field_get_after_set (p v w : Z) :
  is_u64 p -> is_u8 v -> is_u8 w ->
  M6530_GET_DATA (M6530_SET_DATA p v) = v /\
  M6530_GET_PA (M6530_SET_PA p v) = v /\
  M6530_GET_PB (M6530_SET_PB p v) = v /\
  M6530_GET_PA (M6530_SET_PAB p v w) = v /\
  M6530_GET_PB (M6530_SET_PAB p v w) = w.
Proof.
  intros Hp Hv Hw.
  assert (Hv8 : forall i, 8 <= i -> Z.testbit v i = false)
    by (intros; apply (testbit_high 8); (assumption || lia)).
  assert (Hw8 : forall i, 8 <= i -> Z.testbit w i = false)
    by (intros; apply (testbit_high 8); (assumption || lia)).
  split; [ | split; [ | split; [ | split ] ] ].
  - unfold M6530_GET_DATA. field_bit testbit_SET_DATA.
  - unfold M6530_GET_PA. field_bit testbit_SET_PA.
  - unfold M6530_GET_PB. field_bit testbit_SET_PB.
  - unfold M6530_GET_PA. field_bit testbit_SET_PAB.
  - unfold M6530_GET_PB. field_bit testbit_SET_PAB.
Qed.

Lemma field_get_after_set_witness :
  is_u64 0xFFFFFFFFFFFFFFFF /\ is_u8 0x5A /\ is_u8 0xC3 /\
  M6530_GET_DATA (M6530_SET_DATA 0xFFFFFFFFFFFFFFFF 0x5A) = 0x5A.
Proof.
  assert (Hp : is_u64 0xFFFFFFFFFFFFFFFF) by (unfold is_u64; lia).
  assert (Hv : is_u8 0x5A) by (unfold is_u8; lia).
  assert (Hw : is_u8 0xC3) by (unfold is_u8; lia).
  split; [ exact Hp | split; [ exact Hv | split; [ exact Hw | ] ] ].
  apply (field_get_after_set 0xFFFFFFFFFFFFFFFF 0x5A 0xC3 Hp Hv Hw).
Defined.

End FieldTheorems.

(** ** Layout of the pin vector *)

Section Layout.

Lemma testbit_field_mask (m lo i : Z) :
  m = Z.shiftl 0xFF lo -> 0 <= lo -> 0 <= i ->
  (Z.testbit m i = true <-> in_byte_at lo i).
Proof.
  intros -> Hlo Hi. rewrite testbit_byte_mask by assumption.
  unfold in_byte_at. rewrite andb_true_iff, Z.leb_le, Z.ltb_lt. reflexivity.
Qed.

(** C8. The position constants follow the declared layout: A0..A9 are bits
    0..9 in order; D0..D7, PA0..PA7 and PB0..PB7 are the runs of eight bits
    starting at 16, 24 and 32, and the masks M6530_DB_PINS, M6530_PA_PINS and
    M6530_PB_PINS hold exactly those bytes; CS1 and CS2 are two different
    bits; the IRQ bit is in none of the three bytes; and all 40 pins are
    pairwise different bits of the 64-bit vector. *)
Theorem pin_layout :
  address_pins = run 0 10 /\
  data_pins = run 16 8 /\
  port_a_pins = run 24 8 /\
  port_b_pins = run 32 8 /\
  (forall i, 0 <= i -> Z.testbit M6530_DB_PINS i = true <-> in_byte_at M6530_PIN_D0 i) /\
  (forall i, 0 <= i -> Z.testbit M6530_PA_PINS i = true <-> in_byte_at M6530_PIN_PA0 i) /\
  (forall i, 0 <= i -> Z.testbit M6530_PB_PINS i = true <-> in_byte_at M6530_PIN_PB0 i) /\
  Cpp.value_of "M6530_DB_PINS" = Some M6530_DB_PINS /\
  Cpp.value_of "M6530_PA_PINS" = Some M6530_PA_PINS /\
  Cpp.value_of "M6530_PB_PINS" = Some M6530_PB_PINS /\
  M6530_PIN_CS1 <> M6530_PIN_CS2 /\
  ~ in_byte_at M6530_PIN_D0 M6530_PIN_IRQ /\
  ~ in_byte_at M6530_PIN_PA0 M6530_PIN_IRQ /\
  ~ in_byte_at M6530_PIN_PB0 M6530_PIN_IRQ /\
  NoDup all_pins /\
  Forall (fun i => 0 <= i < 64) all_pins.
Proof.
  repeat match goal with |- _ /\ _ => split end.
  - reflexivity.
  - reflexivity.
  - reflexivity.
  - reflexivity.
  - intros i Hi. apply testbit_field_mask; [ reflexivity | discriminate | assumption ].
  - intros i Hi. apply testbit_field_mask; [ reflexivity | discriminate | assumption ].
  - intros i Hi. apply testbit_field_mask; [ reflexivity | discriminate | assumption ].
  - reflexivity.
  - reflexivity.
  - reflexivity.
  - discriminate.
  - unfold in_byte_at, M6530_PIN_D0, M6530_PIN_IRQ. lia.
  - unfold in_byte_at, M6530_PIN_PA0, M6530_PIN_IRQ. lia.
  - unfold in_byte_at, M6530_PIN_PB0, M6530_PIN_IRQ. lia.
  - cbv [all_pins address_pins select_and_control_pins data_pins port_a_pins
           port_b_pins app].
    repeat (constructor; [ simpl; intuition discriminate | ]). constructor.
  - cbv [all_pins address_pins select_and_control_pins data_pins port_a_pins
           port_b_pins app].
    repeat (constructor; [ cbv; split; congruence | ]). constructor.
Qed.

Lemma pin_layout_witness :
  0 <= 16 /\
  (Z.testbit M6530_DB_PINS 16 = true <-> in_byte_at M6530_PIN_D0 16).
Proof.
  assert (H16 : 0 <= 16) by lia.
  split; [ exact H16 | ].
  apply (proj1 (proj2 (proj2 (proj2 (proj2 pin_layout)))) 16 H16).
Defined.

End Layout.

(** ** The pin mask macros *)

Section Masks.

Local Open Scope string_scope.

(** C10. Evaluating every mask macro next to its position macro: all of
    them are [1 << position] except M6530_RS0, M6530_CS1 and M6530_CS2.
    Their position macros have the values 10, 42 and 41, but the mask
    bodies name [6530_PIN_RS0], [6530_PIN_CS1] and [6530_PIN_CS2], which
    are not macros, so the three masks have no value, at any expansion depth.  M6530_DB_PINS is the
    OR of M6530_D0 .. M6530_D7. *)
Theorem pin_masks_evaluated :
  filter (fun mp => negb (Cpp.mask_is_bit_of mp)) Cpp.named_pins
  = [("M6530_RS0", "M6530_PIN_RS0");
     ("M6530_CS1", "M6530_PIN_CS1");
     ("M6530_CS2", "M6530_PIN_CS2")] /\
  (Cpp.value_of "M6530_PIN_RS0" = Some 10 /\ Cpp.value_of "M6530_RS0" = None) /\
  (Cpp.value_of "M6530_PIN_CS1" = Some 42 /\ Cpp.value_of "M6530_CS1" = None) /\
  (Cpp.value_of "M6530_PIN_CS2" = Some 41 /\ Cpp.value_of "M6530_CS2" = None) /\
  Cpp.value_of "M6530_RS0" <> Some (Z.shiftl 1 M6530_PIN_RS0) /\
  Cpp.value_of "M6530_CS1" <> Some (Z.shiftl 1 M6530_PIN_CS1) /\
  Cpp.value_of "M6530_CS2" <> Some (Z.shiftl 1 M6530_PIN_CS2) /\
  (forall fuel, Cpp.eval fuel (Cpp.Name "M6530_RS0") = None) /\
  (forall fuel, Cpp.eval fuel (Cpp.Name "M6530_CS1") = None) /\
  (forall fuel, Cpp.eval fuel (Cpp.Name "M6530_CS2") = None) /\
  Cpp.or_of Cpp.data_bus_masks = Cpp.value_of "M6530_DB_PINS".
Proof.
  assert (Hbad : forall fuel spelling,
             Cpp.eval fuel (Cpp.Shl (Cpp.Const 1) (Cpp.BadNumber spelling)) = None).
  { intros [ | [ | fuel ] ] spelling; reflexivity. }
  repeat match goal with |- _ /\ _ => split end;
    try (intros [ | fuel ]; [ reflexivity | exact (Hbad fuel _) ]);
    solve [ vm_compute; reflexivity | vm_compute; discriminate ].
Qed.

End Masks.

(** ** Port read-back *)

Section PortRead.

Lemma testbit_effective_pins (p : m6530_port_t) (i : Z) :
  0 <= i ->
  Z.testbit (Rriot.effective_pins p) i
  = (i <? 8) && (if Z.testbit (Port.ddr p) i
                 then Z.testbit (Port.outr p) i
                 else Z.testbit (Port.inpr p) i).
Proof.
  intros Hi. unfold Rriot.effective_pins.
  rewrite testbit_u8, Z.lor_spec, !Z.land_spec, Z.lnot_spec by assumption.
  destruct (Z.testbit (Port.ddr p) i), (Z.testbit (Port.outr p) i),
           (Z.testbit (Port.inpr p) i), (i <? 8); reflexivity.
Qed.

Lemma testbit_not8 (d i : Z) :
  0 <= i -> Z.testbit (not8 d) i = (i <? 8) && negb (Z.testbit d i).
Proof.
  intros Hi. unfold not8. rewrite testbit_u8, Z.lnot_spec by assumption.
  reflexivity.
Qed.

Lemma testbit_0xFF (i : Z) : 0 <= i -> Z.testbit 0xFF i = (i <? 8).
Proof.
  intros Hi. change 0xFF with (Z.ones 8).
  rewrite Z.testbit_ones_nonneg by lia. reflexivity.
Qed.

(** C1. For a port (A or B, both are [m6530_port_t]) with direction [D],
    output register [O] and input level [I], all bytes, a read of the data
    register returns [(O & D) | (I & ~D)]: bit by bit, the level of [O]
    where [D] has a 1 and the level of [I] where [D] has a 0.  With
    [D = 0xFF] the read returns [O] whatever level is driven from outside,
    and with [D = 0] it returns [I] whatever is written to the output
    register. *)
Theorem port_read_back (p : m6530_port_t) :
  Port.wf p ->
  Rriot.read_data p
  = Z.lor (Z.land (Port.outr p) (Port.ddr p))
          (Z.land (Port.inpr p) (not8 (Port.ddr p))) /\
  is_u8 (Rriot.read_data p) /\
  (forall i, 0 <= i < 8 ->
             Z.testbit (Rriot.read_data p) i
             = if Z.testbit (Port.ddr p) i
               then Z.testbit (Port.outr p) i
               else Z.testbit (Port.inpr p) i) /\
  (Port.ddr p = 0xFF ->
   Rriot.read_data p = Port.outr p /\
   forall level, Rriot.read_data (Rriot.drive_input p level) = Port.outr p) /\
  (Port.ddr p = 0 ->
   Rriot.read_data p = Port.inpr p /\
   forall v, Rriot.read_data (Rriot.write_data p v) = Port.inpr p).
Proof.
  intros (HI & HO & HD & _). unfold Rriot.read_data.
  split; [ | split; [ | split; [ | split ] ] ].
  - apply Z.bits_inj'. intros i Hi.
    rewrite testbit_effective_pins, Z.lor_spec, !Z.land_spec, testbit_not8
      by assumption.
    rewrite <- (testbit_u8_small (Port.outr p) i HO).
    rewrite <- (testbit_u8_small (Port.inpr p) i HI).
    destruct (i <? 8), (Z.testbit (Port.ddr p) i), (Z.testbit (Port.outr p) i),
             (Z.testbit (Port.inpr p) i); reflexivity.
  - unfold Rriot.effective_pins, u8, is_u8. apply Z.mod_pos_bound. lia.
  - intros i [Hi0 Hi8]. rewrite testbit_effective_pins by assumption.
    destruct (Z.ltb_spec i 8); [ reflexivity | lia ].
  - intros HFF.
    assert (E : forall q, Port.ddr q = 0xFF -> Port.outr q = Port.outr p ->
                          Rriot.effective_pins q = Port.outr p).
    { intros q Hd Ho. apply Z.bits_inj'. intros i Hi.
      rewrite testbit_effective_pins, Hd, Ho, testbit_0xFF by assumption.
      rewrite <- (testbit_u8_small (Port.outr p) i HO).
      destruct (i <? 8); reflexivity. }
    split; [ apply E; (assumption || reflexivity) | ].
    intros level. apply E; [ exact HFF | reflexivity ].
  - intros H0.
    assert (E : forall q, Port.ddr q = 0 -> Port.inpr q = Port.inpr p ->
                          Rriot.effective_pins q = Port.inpr p).
    { intros q Hd Hin. apply Z.bits_inj'. intros i Hi.
      rewrite testbit_effective_pins, Hd, Hin, Z.bits_0 by assumption.
      apply testbit_u8_small. exact HI. }
    split; [ apply E; (assumption || reflexivity) | ].
    intros v. apply E; [ exact H0 | reflexivity ].
Qed.

Lemma port_read_back_witness :
  Port.wf (Port.mk 0x33 0x5A 0xFF 0 false false false false false false) /\
  Port.wf (Port.mk 0x33 0x5A 0 0 false false false false false false) /\
  Rriot.read_data (Port.mk 0x33 0x5A 0xFF 0 false false false false false false) = 0x5A /\
  Rriot.read_data (Port.mk 0x33 0x5A 0 0 false false false false false false) = 0x33.
Proof.
  assert (Hout : Port.wf (Port.mk 0x33 0x5A 0xFF 0 false false false false false false))
    by (unfold Port.wf, is_u8; simpl; lia).
  assert (Hin : Port.wf (Port.mk 0x33 0x5A 0 0 false false false false false false))
    by (unfold Port.wf, is_u8; simpl; lia).
  split; [ exact Hout | split; [ exact Hin | split ] ].
  - apply (port_read_back _ Hout). reflexivity.
  - apply (port_read_back _ Hin). reflexivity.
Defined.

End PortRead.

(** ** Interrupt output *)

Section Irq.

(** Two masks share a set bit exactly when their AND is not zero. *)
Lemma land_nonzero_iff (a b : Z) :
  Z.land a b <> 0 <->
  exists k, Z.testbit a k = true /\ Z.testbit b k = true.
Proof.
  split.
  - intros Hnz.
    assert (Hk : exists k, Z.testbit (Z.land a b) k = true).
    { destruct (Z.lt_trichotomy (Z.land a b) 0) as [Hneg | [Hz | Hpos]].
      - exists (Z.succ (Z.log2 (Z.abs (Z.land a b)))).
        apply Z.bits_iff_neg; [ lia | assumption ].
      - contradiction.
      - exists (Z.log2 (Z.land a b)). apply Z.bit_log2. assumption. }
    destruct Hk as [k Hk]. exists k.
    rewrite Z.land_spec in Hk. apply andb_true_iff. assumption.
  - intros [k [Ha Hb]] Hz.
    assert (Hk : Z.testbit (Z.land a b) k = true)
      by (rewrite Z.land_spec, Ha, Hb; reflexivity).
    rewrite Hz, Z.bits_0 in Hk. discriminate.
Qed.

Lemma testbit_IRQ (i : Z) :
  0 <= i -> Z.testbit M6530_IRQ i = (i =? M6530_PIN_IRQ).
Proof.
  intros Hi. change M6530_IRQ with (2 ^ M6530_PIN_IRQ).
  destruct (Z.eqb_spec i M6530_PIN_IRQ) as [-> | Hne].
  - apply Z.pow2_bits_true. discriminate.
  - apply Z.pow2_bits_false. congruence.
Qed.

Lemma testbit_update_irq (s : m6530_int_t) (pins i : Z) :
  0 <= i < 64 ->
  Z.testbit (Rriot.update_irq s pins) i
  = if i =? M6530_PIN_IRQ
    then negb (Z.land (Int.ier s) (Int.ifr s) =? 0)
    else Z.testbit pins i.
Proof.
  intros [Hi0 Hi64]. unfold Rriot.update_irq.
  destruct (Z.land (Int.ier s) (Int.ifr s) =? 0); simpl.
  - rewrite Z.land_spec, testbit_not64, testbit_IRQ by assumption.
    destruct (Z.ltb_spec i 64); [ | lia ].
    destruct (i =? M6530_PIN_IRQ), (Z.testbit pins i); reflexivity.
  - rewrite Z.lor_spec, testbit_IRQ by assumption.
    destruct (i =? M6530_PIN_IRQ), (Z.testbit pins i); reflexivity.
Qed.

Lemma irq_bit_iff (s : m6530_int_t) (pins : Z) :
  Z.testbit (Rriot.update_irq s pins) M6530_PIN_IRQ = true
  <-> Z.land (Int.ier s) (Int.ifr s) <> 0.
Proof.
  rewrite testbit_update_irq by (unfold M6530_PIN_IRQ; lia).
  rewrite Z.eqb_refl, negb_true_iff. apply Z.eqb_neq.
Qed.

(** C4. After a tick, whatever its earlier phases did, the IRQ bit of the
    returned pin vector is set exactly when the enable and flag masks of the
    state the tick leaves behind have a non-zero AND, that is, share a set
    bit; the other 63 bits are the ones the earlier phases produced, and the
    chip state is the one they produced.  Replacing the enable mask
    leaves the flag mask as it was, and the IRQ bit then follows the new
    enable mask. *)
Theorem irq_pin_after_tick
    (settle : m6530_t -> Z -> m6530_t * Z) (c : m6530_t) (pins : Z) :
  (Z.testbit (snd (Rriot.m6530_tick settle c pins)) M6530_PIN_IRQ = true
   <-> Z.land (Int.ier (Chip.intr (fst (Rriot.m6530_tick settle c pins))))
              (Int.ifr (Chip.intr (fst (Rriot.m6530_tick settle c pins)))) <> 0) /\
  (Z.testbit (snd (Rriot.m6530_tick settle c pins)) M6530_PIN_IRQ = true
   <-> exists k,
         Z.testbit (Int.ier (Chip.intr (fst (Rriot.m6530_tick settle c pins)))) k = true /\
         Z.testbit (Int.ifr (Chip.intr (fst (Rriot.m6530_tick settle c pins)))) k = true) /\
  fst (Rriot.m6530_tick settle c pins) = fst (settle c pins) /\
  (forall i, 0 <= i < 64 -> i <> M6530_PIN_IRQ ->
             Z.testbit (snd (Rriot.m6530_tick settle c pins)) i
             = Z.testbit (snd (settle c pins)) i) /\
  (forall (s : m6530_int_t) (e p : Z),
      Int.ifr (Rriot.set_enable s e) = Int.ifr s /\
      (Z.testbit (Rriot.update_irq (Rriot.set_enable s e) p) M6530_PIN_IRQ = true
       <-> Z.land (u8 e) (Int.ifr s) <> 0)).
Proof.
  unfold Rriot.m6530_tick. destruct (settle c pins) as [c1 p1].
  cbn [fst snd].
  split; [ | split; [ | split; [ | split ] ] ].
  - apply irq_bit_iff.
  - rewrite irq_bit_iff. apply land_nonzero_iff.
  - reflexivity.
  - intros i Hi Hne. rewrite testbit_update_irq by assumption.
    destruct (Z.eqb_spec i M6530_PIN_IRQ); [ contradiction | reflexivity ].
  - intros s e p. split; [ reflexivity | ].
    rewrite irq_bit_iff. reflexivity.
Qed.

Lemma irq_pin_after_tick_witness :
  0 <= 24 < 64 /\ 24 <> M6530_PIN_IRQ /\
  Z.testbit
    (snd (Rriot.m6530_tick (fun c p => (c, p))
            (Chip.mk Rriot.port_power_on Rriot.port_power_on Rriot.timer_power_on
                     (Int.mk 0x80 0x80 0) 0 0 0)
            0x5A000000)) 24
  = Z.testbit 0x5A000000 24.
Proof.
  assert (Hi : 0 <= 24 < 64) by lia.
  assert (Hne : 24 <> M6530_PIN_IRQ) by discriminate.
  split; [ exact Hi | split; [ exact Hne | ] ].
  apply (irq_pin_after_tick (fun c p => (c, p))
           (Chip.mk Rriot.port_power_on Rriot.port_power_on Rriot.timer_power_on
                    (Int.mk 0x80 0x80 0) 0 0 0)
           0x5A000000); assumption.
Defined.

End Irq.

(** ** Reset *)

Section Reset.

(** C7. Resetting twice gives the state that resetting once gives, and in
    that state the registers are zero, both direction registers are zero
    (every port line is an input, so a read returns the level driven from
    outside), the counter and both delay pipelines are zero, and the
    interrupt flags are clear. *)
Theorem reset_idempotent (c : m6530_t) :
  Rriot.m6530_reset (Rriot.m6530_reset c) = Rriot.m6530_reset c /\
  Rriot.registers_zeroed (Rriot.m6530_reset c) /\
  Rriot.directions_all_input (Rriot.m6530_reset c) /\
  Rriot.counters_and_pipelines_cleared (Rriot.m6530_reset c) /\
  Rriot.interrupt_flags_cleared (Rriot.m6530_reset c) /\
  (forall level,
      Rriot.read_data (Rriot.drive_input (Chip.pa (Rriot.m6530_reset c)) level) = u8 level /\
      Rriot.read_data (Rriot.drive_input (Chip.pb (Rriot.m6530_reset c)) level) = u8 level).
Proof.
  split; [ reflexivity | ].
  split; [ repeat split | ].
  split; [ repeat split | ].
  split; [ repeat split | ].
  split; [ repeat split | ].
  intros level.
  assert (E : Rriot.read_data (Rriot.drive_input Rriot.port_power_on level) = u8 level).
  { apply Z.bits_inj'. intros i Hi. unfold Rriot.read_data.
    rewrite testbit_effective_pins by assumption. simpl.
    rewrite Z.bits_0, testbit_u8. destruct (i <? 8); reflexivity. }
  split; exact E.
Qed.

End Reset.

(** ** Laws of the field macros

    What a caller of the accessors and mutators of lines 263-276 can rely on
    when several of them are combined on one pin vector. *)

Section FieldLaws.

Lemma testbit_GET_DATA (p i : Z) :
  0 <= i -> Z.testbit (M6530_GET_DATA p) i = (i <? 8) && Z.testbit p (i + 16).
Proof.
  intros Hi. unfold M6530_GET_DATA.
  rewrite testbit_u8, Z.shiftr_spec by assumption. reflexivity.
Qed.

Lemma testbit_GET_PA (p i : Z) :
  0 <= i -> Z.testbit (M6530_GET_PA p) i = (i <? 8) && Z.testbit p (i + 24).
Proof.
  intros Hi. unfold M6530_GET_PA.
  rewrite testbit_u8, Z.shiftr_spec by assumption. reflexivity.
Qed.

Lemma testbit_GET_PB (p i : Z) :
  0 <= i -> Z.testbit (M6530_GET_PB p) i = (i <? 8) && Z.testbit p (i + 32).
Proof.
  intros Hi. unfold M6530_GET_PB.
  rewrite testbit_u8, Z.shiftr_spec by assumption. reflexivity.
Qed.

(** Rewrite the bits of accessors and mutators, then decide the comparisons
    on the bit index; repeated, since an accessor can sit inside the branch
    of a mutator. *)
Ltac field_rewrite :=
  repeat first
    [ rewrite testbit_SET_DATA by lia
    | rewrite testbit_SET_PA by lia
    | rewrite testbit_SET_PB by lia
    | rewrite testbit_SET_PAB by lia
    | rewrite testbit_GET_DATA by lia
    | rewrite testbit_GET_PA by lia
    | rewrite testbit_GET_PB by lia
    | rewrite testbit_u8 ].

Ltac index_cases :=
  repeat match goal with
         | |- context [?a <=? ?b] =>
             destruct (Z.leb_spec a b); try (exfalso; lia); cbn [andb orb negb]
         | |- context [?a <? ?b] =>
             destruct (Z.ltb_spec a b); try (exfalso; lia); cbn [andb orb negb]
         end.

Ltac field_bits :=
  apply Z.bits_inj'; intros ?i ?Hi;
  repeat (progress (field_rewrite; index_cases));
  try reflexivity; try (f_equal; lia).

(** The byte of [p] that starts at bit [k] decides [(uint8_t)(p >> k)], and
    nothing else does. *)
Lemma byte_at_eq_iff (k p q : Z) :
  0 <= k ->
  (u8 (Z.shiftr p k) = u8 (Z.shiftr q k) <-> agree_on k (k + 7) p q).
Proof.
  intros Hk. split.
  - intros E i [Hlo Hhi].
    assert (B : forall z, Z.testbit z i = Z.testbit (u8 (Z.shiftr z k)) (i - k)).
    { intros z. rewrite testbit_u8, Z.shiftr_spec by lia.
      replace (i - k + k) with i by lia.
      destruct (Z.ltb_spec (i - k) 8); [ reflexivity | lia ]. }
    rewrite (B p), (B q), E. reflexivity.
  - intros A. apply Z.bits_inj'. intros i Hi.
    rewrite !testbit_u8, !Z.shiftr_spec by assumption.
    destruct (Z.ltb_spec i 8); [ simpl | reflexivity ].
    apply A. lia.
Qed.

(** X1. Each accessor reads its own byte and nothing else: two pin vectors
    have the same M6530_GET_DATA (M6530_GET_PA, M6530_GET_PB) exactly when
    they agree on the pins D0..D7 (PA0..PA7, PB0..PB7). *)
Theorem accessors_read_own_field (p q : Z) :
  (M6530_GET_DATA p = M6530_GET_DATA q <-> agree_on M6530_PIN_D0 M6530_PIN_D7 p q) /\
  (M6530_GET_PA p = M6530_GET_PA q <-> agree_on M6530_PIN_PA0 M6530_PIN_PA7 p q) /\
  (M6530_GET_PB p = M6530_GET_PB q <-> agree_on M6530_PIN_PB0 M6530_PIN_PB7 p q).
Proof.
  split; [ | split ].
  - apply (byte_at_eq_iff 16). lia.
  - apply (byte_at_eq_iff 24). lia.
  - apply (byte_at_eq_iff 32). lia.
Qed.

Lemma accessors_read_own_field_witness :
  agree_on M6530_PIN_PB0 M6530_PIN_PB7 0x5A00000000 (Z.lor 0x5A00000000 M6530_IRQ) /\
  M6530_GET_PB 0x5A00000000 = M6530_GET_PB (Z.lor 0x5A00000000 M6530_IRQ).
Proof.
  assert (A : agree_on M6530_PIN_PB0 M6530_PIN_PB7
                0x5A00000000 (Z.lor 0x5A00000000 M6530_IRQ)).
  { intros i [Hlo Hhi]. unfold M6530_PIN_PB0, M6530_PIN_PB7 in *.
    rewrite Z.lor_spec, testbit_IRQ by lia.
    destruct (Z.eqb_spec i M6530_PIN_IRQ) as [E | _].
    - unfold M6530_PIN_IRQ in E. lia.
    - apply eq_sym, orb_false_r. }
  split; [ exact A | ].
  apply (proj2 (proj2 (accessors_read_own_field
                         0x5A00000000 (Z.lor 0x5A00000000 M6530_IRQ)))).
  exact A.
Defined.

(** X2. Writing one field does not change what the accessors of the other
    fields return, for any pin vector and any written value. *)
Theorem accessors_ignore_other_fields (p v w : Z) :
  M6530_GET_PA (M6530_SET_DATA p v) = M6530_GET_PA p /\
  M6530_GET_PB (M6530_SET_DATA p v) = M6530_GET_PB p /\
  M6530_GET_DATA (M6530_SET_PA p v) = M6530_GET_DATA p /\
  M6530_GET_PB (M6530_SET_PA p v) = M6530_GET_PB p /\
  M6530_GET_DATA (M6530_SET_PB p v) = M6530_GET_DATA p /\
  M6530_GET_PA (M6530_SET_PB p v) = M6530_GET_PA p /\
  M6530_GET_DATA (M6530_SET_PAB p v w) = M6530_GET_DATA p.
Proof.
  repeat match goal with |- _ /\ _ => split end; field_bits.
Qed.

(** X3. The last write to a field wins: a second write to the same field
    gives the vector that this write alone gives. *)
Theorem field_last_write_wins (p v w v' w' : Z) :
  M6530_SET_DATA (M6530_SET_DATA p v) v' = M6530_SET_DATA p v' /\
  M6530_SET_PA (M6530_SET_PA p v) v' = M6530_SET_PA p v' /\
  M6530_SET_PB (M6530_SET_PB p v) v' = M6530_SET_PB p v' /\
  M6530_SET_PAB (M6530_SET_PAB p v w) v' w' = M6530_SET_PAB p v' w'.
Proof.
  repeat match goal with |- _ /\ _ => split end; field_bits.
Qed.

(** X4. Writes to different fields commute, and M6530_SET_PAB is
    M6530_SET_PA and M6530_SET_PB applied one after the other, in either
    order. *)
Theorem field_writes_commute (p a b d : Z) :
  M6530_SET_PB (M6530_SET_PA p a) b = M6530_SET_PAB p a b /\
  M6530_SET_PA (M6530_SET_PB p b) a = M6530_SET_PAB p a b /\
  M6530_SET_DATA (M6530_SET_PA p a) d = M6530_SET_PA (M6530_SET_DATA p d) a /\
  M6530_SET_DATA (M6530_SET_PB p b) d = M6530_SET_PB (M6530_SET_DATA p d) b /\
  M6530_SET_DATA (M6530_SET_PAB p a b) d = M6530_SET_PAB (M6530_SET_DATA p d) a b.
Proof.
  repeat match goal with |- _ /\ _ => split end; field_bits.
Qed.

(** X5. Writing back the value just read changes nothing: on a 64-bit pin
    vector, each mutator applied to the value its accessor returns gives the
    vector itself. *)
Theorem field_write_back (p : Z) :
  is_u64 p ->
  M6530_SET_DATA p (M6530_GET_DATA p) = p /\
  M6530_SET_PA p (M6530_GET_PA p) = p /\
  M6530_SET_PB p (M6530_GET_PB p) = p /\
  M6530_SET_PAB p (M6530_GET_PA p) (M6530_GET_PB p) = p.
Proof.
  intros Hp.
  assert (Hhi : forall i, 64 <= i -> false = Z.testbit p i)
    by (intros; symmetry; apply (testbit_high 64); (assumption || lia)).
  repeat match goal with |- _ /\ _ => split end; field_bits; auto.
Qed.

Lemma field_write_back_witness :
  is_u64 0x123456789ABCDEF0 /\
  M6530_SET_PB 0x123456789ABCDEF0 (M6530_GET_PB 0x123456789ABCDEF0)
  = 0x123456789ABCDEF0.
Proof.
  assert (Hp : is_u64 0x123456789ABCDEF0) by (unfold is_u64; lia).
  split; [ exact Hp | ].
  apply (field_write_back 0x123456789ABCDEF0 Hp).
Defined.

(** X6. The mutators keep only the low eight bits of the value they are
    given.  For the port mutators, which mask with [0xFF] before shifting,
    this holds for every value: the accessor then returns the value modulo
    256, and the written vector is the one the truncated value gives.  For
    M6530_SET_DATA, which shifts first, it is stated for values below 2^15,
    where [d << 16] is defined whatever integer type [d] has. *)
Theorem field_write_truncates (p a b d : Z) :
  0 <= d < 2 ^ 15 ->
  M6530_GET_PA (M6530_SET_PA p a) = u8 a /\
  M6530_GET_PB (M6530_SET_PB p b) = u8 b /\
  M6530_GET_PA (M6530_SET_PAB p a b) = u8 a /\
  M6530_GET_PB (M6530_SET_PAB p a b) = u8 b /\
  M6530_GET_DATA (M6530_SET_DATA p d) = u8 d /\
  M6530_SET_PA p a = M6530_SET_PA p (u8 a) /\
  M6530_SET_PB p b = M6530_SET_PB p (u8 b) /\
  M6530_SET_PAB p a b = M6530_SET_PAB p (u8 a) (u8 b) /\
  M6530_SET_DATA p d = M6530_SET_DATA p (u8 d).
Proof.
  intros _.
  repeat match goal with |- _ /\ _ => split end; field_bits.
Qed.

Lemma field_write_truncates_witness :
  0 <= 0x1A5 < 2 ^ 15 /\
  M6530_GET_DATA (M6530_SET_DATA 0 0x1A5) = 0xA5 /\
  M6530_GET_PA (M6530_SET_PA 0 0x1A5) = 0xA5.
Proof.
  assert (Hd : 0 <= 0x1A5 < 2 ^ 15) by lia.
  split; [ exact Hd | split ].
  - apply (field_write_truncates 0 0x1A5 0x1A5 0x1A5 Hd).
  - apply (field_write_truncates 0 0x1A5 0x1A5 0x1A5 Hd).
Defined.

Lemma byte_under_mask (k p : Z) :
  0 <= k ->
  Z.shiftr (Z.land p (Z.shiftl 0xFF k)) k = u8 (Z.shiftr p k).
Proof.
  intros Hk. apply Z.bits_inj'. intros i Hi.
  rewrite testbit_u8, !Z.shiftr_spec, Z.land_spec, testbit_byte_mask by lia.
  destruct (Z.leb_spec k (i + k)), (Z.ltb_spec (i + k) (k + 8)), (Z.ltb_spec i 8);
    try lia; cbn [andb]; first [ apply andb_true_r | apply andb_false_r ].
Qed.

Lemma byte_mask_of_cast (k p : Z) :
  0 <= k <= 56 ->
  Z.land p (Z.shiftl 0xFF k) = u64 (Z.shiftl (u8 (Z.shiftr p k)) k).
Proof.
  intros Hk. apply Z.bits_inj'. intros i Hi.
  rewrite Z.land_spec, testbit_byte_mask, testbit_u64, Z.shiftl_spec by lia.
  destruct (Z.leb_spec k i); cbn [andb].
  - rewrite testbit_u8, Z.shiftr_spec by lia.
    replace (i - k + k) with i by lia.
    destruct (Z.ltb_spec (i - k) 8), (Z.ltb_spec i (k + 8)), (Z.ltb_spec i 64);
      try lia; cbn [andb]; first [ apply andb_true_r | apply andb_false_r ].
  - rewrite andb_false_r, Z.testbit_neg_r by lia. symmetry. apply andb_false_r.
Qed.

(** X7. The named group masks and the accessors agree.  Masking a pin
    vector with M6530_DB_PINS, M6530_PA_PINS or M6530_PB_PINS and shifting the
    result down to bit 0, [(p & M6530_PA_PINS) >> M6530_PIN_PA0], gives the
    value of the accessor; and the masked vector is the accessor's value
    converted to 64 bits and then shifted up,
    [(uint64_t)M6530_GET_PA(p) << M6530_PIN_PA0].  The conversion comes
    first: the accessor's [uint8_t] would otherwise be shifted as an [int]. *)
Theorem group_masks_select_fields (p : Z) :
  (Z.shiftr (Z.land p M6530_DB_PINS) M6530_PIN_D0 = M6530_GET_DATA p /\
   Z.shiftr (Z.land p M6530_PA_PINS) M6530_PIN_PA0 = M6530_GET_PA p /\
   Z.shiftr (Z.land p M6530_PB_PINS) M6530_PIN_PB0 = M6530_GET_PB p) /\
  (Z.land p M6530_DB_PINS = u64 (Z.shiftl (u64 (M6530_GET_DATA p)) M6530_PIN_D0) /\
   Z.land p M6530_PA_PINS = u64 (Z.shiftl (u64 (M6530_GET_PA p)) M6530_PIN_PA0) /\
   Z.land p M6530_PB_PINS = u64 (Z.shiftl (u64 (M6530_GET_PB p)) M6530_PIN_PB0)).
Proof.
  assert (Hcast : forall z, u64 (u8 z) = u8 z).
  { intros z. unfold u64, u8. apply Z.mod_small.
    pose proof (Z.mod_pos_bound z (2 ^ 8)). lia. }
  split; [ split; [ | split ] | split; [ | split ] ].
  - apply (byte_under_mask 16). lia.
  - apply (byte_under_mask 24). lia.
  - apply (byte_under_mask 32). lia.
  - unfold M6530_GET_DATA. rewrite Hcast. apply (byte_mask_of_cast 16). lia.
  - unfold M6530_GET_PA. rewrite Hcast. apply (byte_mask_of_cast 24). lia.
  - unfold M6530_GET_PB. rewrite Hcast. apply (byte_mask_of_cast 32). lia.
Qed.

(** The top bit of a port byte: the values at which a shift of the bare
    [uint8_t] would leave the range of [int]. *)
Example group_mask_port_a_top_bit :
  Z.land 0x123456789ABCDEF0 M6530_PA_PINS = 0x9A000000 /\
  M6530_GET_PA 0x123456789ABCDEF0 = 0x9A /\
  Z.land 0x123456789ABCDEF0 M6530_PB_PINS = 0x7800000000 /\
  M6530_GET_PB 0x123456789ABCDEF0 = 0x78.
Proof. repeat split; reflexivity. Qed.

(** X8. Copying the three byte fields of a 64-bit vector [p] into a vector
    [q] that has the levels of [p] on every pin outside D0..PB7 rebuilds
    [p]: the data bus byte, the two port bytes and the remaining pins
    determine the vector. *)
Theorem fields_rebuild (p q : Z) :
  is_u64 p ->
  (forall i, i < M6530_PIN_D0 \/ M6530_PIN_PB7 < i -> Z.testbit q i = Z.testbit p i) ->
  M6530_SET_PAB (M6530_SET_DATA q (M6530_GET_DATA p)) (M6530_GET_PA p) (M6530_GET_PB p)
  = p.
Proof.
  intros Hp Hq.
  assert (Hhi : forall i, 64 <= i -> false = Z.testbit p i)
    by (intros; symmetry; apply (testbit_high 64); (assumption || lia)).
  unfold M6530_PIN_D0, M6530_PIN_PB7 in Hq.
  field_bits; auto; apply Hq; lia.
Qed.

Lemma fields_rebuild_witness :
  is_u64 0x123456789ABCDEF0 /\
  (forall i, i < M6530_PIN_D0 \/ M6530_PIN_PB7 < i ->
             Z.testbit 0x123456000000DEF0 i = Z.testbit 0x123456789ABCDEF0 i) /\
  M6530_SET_PAB (M6530_SET_DATA 0x123456000000DEF0
                                (M6530_GET_DATA 0x123456789ABCDEF0))
                (M6530_GET_PA 0x123456789ABCDEF0) (M6530_GET_PB 0x123456789ABCDEF0)
  = 0x123456789ABCDEF0.
Proof.
  assert (Hp : is_u64 0x123456789ABCDEF0) by (unfold is_u64; lia).
  assert (Hq : forall i, i < M6530_PIN_D0 \/ M6530_PIN_PB7 < i ->
                         Z.testbit 0x123456000000DEF0 i
                         = Z.testbit 0x123456789ABCDEF0 i).
  { intros i Hi. unfold M6530_PIN_D0, M6530_PIN_PB7 in Hi.
    change 0x123456000000DEF0
      with (M6530_SET_PAB (M6530_SET_DATA 0x123456789ABCDEF0 0) 0 0).
    destruct (Z.lt_ge_cases i 0) as [Hneg | Hpos].
    - rewrite !Z.testbit_neg_r by assumption. reflexivity.
    - field_rewrite. index_cases; try reflexivity.
      symmetry. apply (testbit_high 64); (exact Hp || lia). }
  split; [ exact Hp | split; [ exact Hq | ] ].
  apply (fields_rebuild _ _ Hp Hq).
Defined.

End FieldLaws.
